(** * doc/conf.py: the Sphinx configuration module of the jsbot documentation

    The module is a sequence of top-level assignments followed by one
    function definition.  Running it fills the module's global namespace;
    the documentation builder then reads that namespace and calls the
    [setup] hook with its application object.

    Python [str] values are kept as [string] (the UTF-8 bytes of the source
    file), [int] as [Z], [list] as [list], a [dict] display as the
    association list of its items in the order written, and the module
    namespace as a finite map from names to objects. *)

From Stdlib Require Import ZArith DecimalString.
From stdpp Require Import base option strings list gmap fin_maps.

Local Open Scope string_scope.
Local Open Scope Z_scope.

(** ** Values *)

Module Py.

(** The data a configuration option can hold. *)
#[warnings="-register-all"]
Inductive pyval : Type :=
| VNone
| VStr (s : string)
| VBool (b : bool)
| VInt (n : Z)
| VList (items : list pyval)
| VDict (items : list (string * pyval)).

(** [type(v)], as far as the values above go. *)
Inductive pytype : Type := TNone | TStr | TBool | TInt | TList | TDict | TFunction.

Global Instance pytype_eq_dec : EqDecision pytype.
Proof. solve_decision. Defined.

Definition type_of (v : pyval) : pytype :=
  match v with
  | VNone => TNone
  | VStr _ => TStr
  | VBool _ => TBool
  | VInt _ => TInt
  | VList _ => TList
  | VDict _ => TDict
  end.

(** [d[key]] on a dict display: the last item written for a key wins. *)
Fixpoint dict_get (key : string) (items : list (string * pyval)) : option pyval :=
  match items with
  | [] => None
  | (k, v) :: rest =>
      match dict_get key rest with
      | Some v' => Some v'
      | None => if String.eqb k key then Some v else None
      end
  end.

(** [v[key]] for a value [v]: only a dict can be subscripted by a name. *)
Definition subscript (v : pyval) (key : string) : option pyval :=
  match v with
  | VDict items => dict_get key items
  | _ => None
  end.

(** [v[i]] for a list [v] and a non-negative index [i]. *)
Definition index (v : pyval) (i : nat) : option pyval :=
  match v with
  | VList items => items !! i
  | _ => None
  end.

(** [all(isinstance(x, str) for x in items)]. *)
Definition all_str (items : list pyval) : bool :=
  forallb (fun x => bool_decide (type_of x = TStr)) items.

End Py.
Export Py.

(** ** Hooks and the objects they are called with *)

Module Hook.

(** One method call [receiver.method(args)]. *)
Record call : Type := Call { method : string; args : list pyval }.

(** The body of a function of one parameter, seen from outside: the method
    calls it makes on the object it was given, each continued with the
    value the call returned, up to the value the function returns. *)
Inductive hook (R : Type) : Type :=
| Return (r : R)
| Invoke (c : call) (k : pyval -> hook R).
Arguments Return {R} r.
Arguments Invoke {R} c k.

(** [p.m(args)] as a statement or sub-expression. *)
Definition call_method (m : string) (a : list pyval) : hook pyval :=
  Invoke (Call m a) Return.

Fixpoint hook_bind {R S : Type} (h : hook R) (f : R -> hook S) : hook S :=
  match h with
  | Return r => f r
  | Invoke c k => Invoke c (fun v => hook_bind (k v) f)
  end.

Global Instance hook_mret : MRet hook := @Return.
Global Instance hook_mbind : MBind hook := fun R S f h => hook_bind h f.

(** What [receiver.method(args)] does to an object.  The attribute
    [method] is looked up first and must be callable; if that already
    fails ([AttributeError] for a missing attribute, [TypeError] for one
    that cannot be called) nothing is called.  Otherwise the method is
    called and returns a value or raises.  In all cases the object is left
    in some state. *)
Inductive outcome (A : Type) : Type :=
| Returned (v : pyval) (a : A)
| Raised (exc : string) (a : A)
| NotCalled (exc : string) (a : A).
Arguments Returned {A} v a.
Arguments Raised {A} exc a.
Arguments NotCalled {A} exc a.

Definition state_after {A : Type} (o : outcome A) : A :=
  match o with Returned _ a => a | Raised _ a => a | NotCalled _ a => a end.

(** An object answers method calls. *)
Class PyObject (A : Type) : Type := invoke : call -> A -> outcome A.

(** The documentation builder's application object: its [add_css_file]
    accepts a file name and returns. *)
Class Application (A : Type) : Type := {
  #[global] app_object :: PyObject A;
  add_css_file_returns : forall (filename : string) (app : A),
    exists v app', invoke (Call "add_css_file" [VStr filename]) app = Returned v app'
}.

(** How a function call ends. *)
Inductive completion (R : Type) : Type :=
| Normal (r : R)
| Exception (exc : string).
Arguments Normal {R} r.
Arguments Exception {R} exc.

Record run (A R : Type) : Type := Run {
  calls : list call;          (* every call made on the object, in order *)
  result : completion R;
  final : A                   (* the object afterwards *)
}.
Arguments Run {A R} calls result final.
Arguments calls {A R} r.
Arguments result {A R} r.
Arguments final {A R} r.

(** Calling a function whose body is [h] with the object [app]. *)
Fixpoint run_hook {A R : Type} `{PyObject A} (h : hook R) (app : A) : run A R :=
  match h with
  | Return r => Run [] (Normal r) app
  | Invoke c k =>
      match invoke c app with
      | Returned v app' =>
          let r := run_hook (k v) app' in
          Run (c :: calls r) (result r) (final r)
      | Raised exc app' => Run [c] (Exception exc) app'
      | NotCalled exc app' => Run [] (Exception exc) app'
      end
  end.

End Hook.
Export Hook.

(** ** Running a module *)

Module Exec.

(** What a module-level name can be bound to: a value, or a function of
    the given parameters ([def]). *)
Inductive pyobj : Type :=
| Data (v : pyval)
| Function (params : list string) (body : hook pyval).

Definition obj_type (o : pyobj) : pytype :=
  match o with
  | Data v => type_of v
  | Function _ _ => TFunction
  end.

Inductive error : Type :=
| NameError (name : string)      (* a name read before it is bound *)
| Unsupported.                   (* a case the model does not cover *)

Inductive outcome_of (A : Type) : Type :=
| Ok (a : A) (g : gmap string pyobj)
| Err (e : error).
Arguments Ok {A} a g.
Arguments Err {A} e.

(** A piece of module-level code: it runs on the module's globals and
    either finishes with a value and the updated globals, or raises. *)
Definition exec (A : Type) : Type := gmap string pyobj -> outcome_of A.

Global Instance exec_mret : MRet exec := fun A a g => Ok a g.
Global Instance exec_mbind : MBind exec := fun A B f m g =>
  match m g with
  | Ok a g' => f a g'
  | Err e => Err e
  end.

(** Reading the name [name] at module level: the globals first, then the
    builtins that the globals carry under [__builtins__].  A dict there is
    searched, and only a miss in it is a [NameError].  Globals without the
    entry run under the interpreter's own builtins, and an entry that is
    not a dict is a module or an error; the model covers neither. *)
Definition load (name : string) : exec pyobj := fun g =>
  match g !! name with
  | Some o => Ok o g
  | None =>
      match g !! "__builtins__" with
      | Some (Data (VDict builtins)) =>
          match dict_get name builtins with
          | Some v => Ok (Data v) g
          | None => Err (NameError name)
          end
      | _ => Err Unsupported
      end
  end.

(** [name = v] and [def name(params): body]. *)
Definition store (name : string) (o : pyobj) : exec unit := fun g =>
  Ok tt (<[name := o]> g).

Definition assign (name : string) (v : pyval) : exec unit := store name (Data v).
Definition def (name : string) (params : list string) (body : hook pyval) : exec unit :=
  store name (Function params body).

(** [format(o, '')], which is what a replacement field [{e}] of an f-string
    without conversion or format spec produces.  A [str] formats to itself;
    [repr] of containers and functions is left out. *)
Definition format_value (o : pyobj) : exec string :=
  match o with
  | Data (VStr s) => mret s
  | Data (VBool b) => mret (if b then "True" else "False")
  | Data (VInt n) => mret (NilZero.string_of_int (Z.to_int n))
  | Data VNone => mret "None"
  | _ => fun _ => Err Unsupported
  end.

(** The parts of an f-string, left to right. *)
Inductive fpart : Type :=
| Literal (s : string)
| Replacement (e : exec pyobj).

Fixpoint fstring (parts : list fpart) : exec string :=
  match parts with
  | [] => mret EmptyString
  | Literal s :: rest => tail ← fstring rest; mret (s +:+ tail)
  | Replacement e :: rest =>
      o ← e; s ← format_value o; tail ← fstring rest; mret (s +:+ tail)
  end.

(** Importing a module: its body runs on empty globals. *)
Definition import (body : exec unit) : option (gmap string pyobj) :=
  match body ∅ with
  | Ok _ g => Some g
  | Err _ => None
  end.

End Exec.
Export Exec.

Notation "name ::= v" := (assign name v) (at level 60, no associativity).

(** ** The configuration module, statement by statement *)

Module Conf.

(** *** Project information *)

Definition project : pyval := VStr "Discord.js Bot Project".
Definition copyright : pyval := VStr "2024, d".
Definition author : pyval := VStr "d".

(** [html_title = f'{project}']: one replacement field and nothing else. *)
Definition html_title : exec unit :=
  title ← fstring [Replacement (load "project")];
  "html_title" ::= VStr title.

(** *** General configuration *)

Definition extensions : pyval := VList [
  VStr "myst_parser";
  VStr "sphinx.ext.extlinks";
  VStr "sphinx.ext.graphviz";
  VStr "sphinx.ext.intersphinx";
  VStr "sphinx.ext.todo";
  VStr "sphinx_copybutton";
  VStr "sphinx_design";
  VStr "sphinx_examples";
  VStr "sphinx_last_updated_by_git";
  VStr "sphinx_sitemap";
  VStr "sphinx_tabs.tabs";
  VStr "sphinx_togglebutton";
  VStr "sphinxext.opengraph"
].

Definition togglebutton_hint : pyval := VStr "点击展开".
Definition togglebutton_hint_hide : pyval := VStr "点击隐藏".

Definition templates_path : pyval := VList [VStr "_templates"].
Definition exclude_patterns : pyval := VList [VStr "README.md"].

Definition language : pyval := VStr "zh_CN".

Definition html_copy_source : pyval := VBool false.
Definition html_show_sourcelink : pyval := VBool false.

Definition myst_enable_extensions : pyval :=
  VList [VStr "colon_fence"; VStr "deflist"; VStr "dollarmath"].
Definition myst_heading_anchors : pyval := VInt 2.
Definition myst_highlight_code_blocks : pyval := VBool true.

(** *** Options for HTML output *)

Definition html_theme : pyval := VStr "sphinx_book_theme".
Definition html_theme_options : pyval := VDict [
  ("icon_links", VList [
     VDict [
       ("name", VStr "Gitlab");
       ("url", VStr "https://github.com/ODYZZEIA-Discord-bot/jsbot_doc");
       ("icon", VStr "fa-brands fa-gitlab")
     ]
   ]);
  ("repository_url", VStr "https://github.com/ODYZZEIA-Discord-bot/jsbot_doc");
  ("search_as_you_type", VBool true);
  ("show_nav_level", VInt 0);
  ("show_prev_next", VBool true);
  ("show_toc_level", VInt 2);
  ("use_edit_page_button", VBool true);
  ("use_issues_button", VBool true);
  ("use_sidenotes", VBool true);
  ("use_source_button", VBool true)
].
Definition html_static_path : pyval := VList [VStr "_static"; VStr "_theme"].
Definition html_search_language : pyval := VStr "zh".
Definition html_last_updated_fmt : pyval := VStr "%Y-%m-%d %H:%M:%S".
Definition git_last_updated_timezone : pyval := VStr "Asia/Shanghai".
Definition html_baseurl : pyval := VStr "https://TODO/".
Definition sitemap_filename : pyval := VStr "sitemapindex.xml".
Definition sitemap_url_scheme : pyval := VStr "{link}".
Definition html_extra_path : pyval := VList [
  VStr "_static/robots.txt"
].

(** [def setup(app): app.add_css_file("theme.css")].  The call is an
    expression statement, so its value is dropped; the body ends without a
    [return], so the function returns [None]. *)
Definition setup : hook pyval :=
  call_method "add_css_file" [VStr "theme.css"];;
  mret VNone.

(** The module body, in the order of the file. *)
Definition conf_py : exec unit :=
  "project" ::= project;;
  "copyright" ::= copyright;;
  "author" ::= author;;
  html_title;;
  "extensions" ::= extensions;;
  "togglebutton_hint" ::= togglebutton_hint;;
  "togglebutton_hint_hide" ::= togglebutton_hint_hide;;
  "templates_path" ::= templates_path;;
  "exclude_patterns" ::= exclude_patterns;;
  "language" ::= language;;
  "html_copy_source" ::= html_copy_source;;
  "html_show_sourcelink" ::= html_show_sourcelink;;
  "myst_enable_extensions" ::= myst_enable_extensions;;
  "myst_heading_anchors" ::= myst_heading_anchors;;
  "myst_highlight_code_blocks" ::= myst_highlight_code_blocks;;
  "html_theme" ::= html_theme;;
  "html_theme_options" ::= html_theme_options;;
  "html_static_path" ::= html_static_path;;
  "html_search_language" ::= html_search_language;;
  "html_last_updated_fmt" ::= html_last_updated_fmt;;
  "git_last_updated_timezone" ::= git_last_updated_timezone;;
  "html_baseurl" ::= html_baseurl;;
  "sitemap_filename" ::= sitemap_filename;;
  "sitemap_url_scheme" ::= sitemap_url_scheme;;
  "html_extra_path" ::= html_extra_path;;
  def "setup" ["app"] setup.

(** The namespace the documentation builder reads. *)
Definition conf : gmap string pyobj := default ∅ (import conf_py).

(** The value of the option [name], if the module binds it to data. *)
Definition option_value (name : string) : option pyval :=
  match conf !! name with
  | Some (Data v) => Some v
  | _ => None
  end.

End Conf.
Export Conf.

(** ** A concrete application object *)

Module Sphinx.

(** An application that keeps the stylesheets registered so far.  It has
    the one method [add_css_file(filename)], which appends the file name and
    returns [None], and raises [TypeError] on other arguments; it has no
    other attribute. *)
Record app : Type := App { css_files : list string }.

Global Instance app_object : PyObject app := fun c a =>
  if String.eqb (method c) "add_css_file" then
    match args c with
    | [VStr filename] => Returned VNone (App (css_files a ++ [filename]))
    | _ => Raised "TypeError" a
    end
  else NotCalled "AttributeError" a.

Global Instance app_application : Application app.
Proof.
  refine {| Hook.app_object := app_object |}.
  intros filename a. eexists _, _. reflexivity.
Defined.

End Sphinx.

(** ** Shapes of configuration values *)

Module Shape.

(** The types a binding other than a function can have. *)
Definition plain_types : list pytype := [TStr; TBool; TInt; TList; TDict].

(** A mapping all of whose values are strings, such as one icon link. *)
Definition str_mapping (v : pyval) : bool :=
  match v with
  | VDict items => forallb (fun kv => bool_decide (type_of kv.2 = TStr)) items
  | _ => false
  end.

(** A value inside the theme-options mapping: a string, a boolean, an
    integer, or a sequence of string mappings. *)
Definition display_option (v : pyval) : bool :=
  match v with
  | VStr _ | VBool _ | VInt _ => true
  | VList items => forallb str_mapping items
  | _ => false
  end.

Definition display_options (items : list (string * pyval)) : bool :=
  forallb (fun kv => display_option kv.2) items.

(** The four shapes the description of the data model lists: a string, a
    boolean, an ordered sequence of strings, a mapping. *)
Definition listed_shape (o : pyobj) : bool :=
  match o with
  | Data (VStr _) | Data (VBool _) | Data (VDict _) => true
  | Data (VList items) => all_str items
  | _ => false
  end.

(** The options of the toggle-button extension. *)
Definition togglebutton_options : list string :=
  ["togglebutton_hint"; "togglebutton_hint_hide"].

(** Options held together in one mapping-valued binding of [g]. *)
Definition declared_in_mapping (g : gmap string pyobj) (options : list string) : Prop :=
  exists name items,
    g !! name = Some (Data (VDict items)) /\
    Forall (fun o => is_Some (dict_get o items)) options.

(** Options bound one by one as top-level string variables of [g]. *)
Definition declared_flat (g : gmap string pyobj) (options : list string) : Prop :=
  Forall (fun o => exists s, g !! o = Some (Data (VStr s))) options.

(** An option of the theme: [html_theme_options[key]]. *)
Definition theme_option (key : string) : option pyval :=
  v ← option_value "html_theme_options"; subscript v key.

(** [html_theme_options['icon_links'][i][key]]. *)
Definition icon_link (i : nat) (key : string) : option pyval :=
  links ← theme_option "icon_links"; link ← index links i; subscript link key.

End Shape.
Export Shape.

(** ** An object without methods *)

Module Bare.

(** A plain object: it has no attribute, so whatever method is asked of it
    the lookup raises [AttributeError] and nothing is called. *)
Inductive object : Type := Object.

Global Instance bare_object : PyObject object := fun _ a => NotCalled "AttributeError" a.

End Bare.

(** ** An application that refuses stylesheets *)

Module Frozen.

(** An application whose [add_css_file] exists and raises on every call,
    counting the calls it got; it has no other attribute. *)
Record app : Type := App { refused : nat }.

Global Instance app_object : PyObject app := fun c a =>
  if String.eqb (method c) "add_css_file" then
    Raised "ExtensionError" (App (S (refused a)))
  else NotCalled "AttributeError" a.

End Frozen.

(** ** Keys of a dict display *)

Module Dict.

(** The keys as written, left to right, repetitions included. *)
Definition written_keys (items : list (string * pyval)) : list string := items.*1.

End Dict.
Export Dict.

(** ** Facts about the model *)

Lemma append_empty_r (s : string) : s +:+ EmptyString = s.
Proof.
  induction s as [|a s IH]; [reflexivity |].
  change (String a (s +:+ EmptyString) = String a s). by rewrite IH.
Qed.

(** Up to the first call a hook behaves the same on every object. *)
Lemma run_hook_invoke_returned {A R : Type} `{PyObject A}
    (c : call) (k : pyval -> hook R) (app app' : A) (v : pyval) :
  invoke c app = Returned v app' ->
  run_hook (Invoke c k) app =
    Run (c :: calls (run_hook (k v) app')) (result (run_hook (k v) app'))
        (final (run_hook (k v) app')).
Proof. intros E. simpl. by rewrite E. Qed.

Lemma run_hook_invoke_raised {A R : Type} `{PyObject A}
    (c : call) (k : pyval -> hook R) (app app' : A) (exc : string) :
  invoke c app = Raised exc app' ->
  run_hook (Invoke c k) app = Run [c] (Exception exc) app'.
Proof. intros E. simpl. by rewrite E. Qed.

Lemma run_hook_invoke_not_called {A R : Type} `{PyObject A}
    (c : call) (k : pyval -> hook R) (app app' : A) (exc : string) :
  invoke c app = NotCalled exc app' ->
  run_hook (Invoke c k) app = Run [] (Exception exc) app'.
Proof. intros E. simpl. by rewrite E. Qed.

(** On any object at all [setup] makes at most its one call: exactly that
    call when the object has the method, none when the lookup fails. *)
Lemma setup_calls_at_most_once {A : Type} `{PyObject A} (app : A) :
  calls (run_hook setup app) =
    match invoke (Call "add_css_file" [VStr "theme.css"]) app with
    | NotCalled _ _ => []
    | _ => [Call "add_css_file" [VStr "theme.css"]]
    end.
Proof.
  unfold setup, call_method. cbn [mbind hook_mbind hook_bind mret hook_mret].
  destruct (invoke (Call "add_css_file" [VStr "theme.css"]) app)
    as [v app'|exc app'|exc app'] eqn:E.
  - by rewrite (run_hook_invoke_returned _ _ _ _ _ E).
  - by rewrite (run_hook_invoke_raised _ _ _ _ _ E).
  - by rewrite (run_hook_invoke_not_called _ _ _ _ _ E).
Qed.

(** The module body runs to its end: no name is read before it is bound. *)
Lemma conf_py_runs : import conf_py = Some conf.
Proof.
  assert (H : is_Some (import conf_py)).
  { apply (bool_decide_unpack _). vm_compute. reflexivity. }
  unfold conf. destruct H as [g ->]. reflexivity.
Qed.

(** A property of every binding follows from checking the bindings one by
    one. *)
Lemma conf_bindings_ind (P : string -> pyobj -> Prop) :
  Forall (uncurry P) (map_to_list conf) ->
  forall name o, conf !! name = Some o -> P name o.
Proof.
  intros H name o Hl. apply map_Forall_to_list in H. exact (H name o Hl).
Qed.

Ltac forall_items :=
  lazymatch goal with
  | |- Forall _ [] => apply List.Forall_nil
  | |- Forall _ (_ :: _) => apply List.Forall_cons; [cbn [uncurry] | forall_items]
  end.

Ltac each_binding :=
  apply conf_bindings_ind;
  let l := eval vm_compute in (map_to_list conf) in
  let E := fresh "E" in
  assert (E : map_to_list conf = l) by (vm_compute; reflexivity);
  rewrite E; clear E;
  forall_items.

(** The module binds twenty-six names. *)
Lemma conf_size : size conf = 26%nat.
Proof. vm_compute. reflexivity. Qed.

(** An f-string made of one replacement field that reads a [str] global is
    that string. *)
Lemma fstring_lone_str (name s : string) (g : gmap string pyobj) :
  g !! name = Some (Data (VStr s)) ->
  fstring [Replacement (load name)] g = Ok s g.
Proof.
  intros E. cbn [fstring]. unfold mbind, exec_mbind, load. rewrite E. cbn.
  unfold mret, exec_mret. by rewrite append_empty_r.
Qed.

(** ** The setup hook *)

(** C1. Called with an application object, [setup] calls the object's
    [add_css_file] exactly once, with the single argument ["theme.css"],
    makes no other call, leaves the application as that one call left it,
    and returns [None]; [setup] is the function the module binds under
    that name, taking the one parameter [app]. *)
Theorem setup_registers_theme_css :
  conf !! "setup" = Some (Function ["app"] setup) /\
  forall (A : Type) (APP : Application A) (app : A),
    calls (run_hook setup app) = [Call "add_css_file" [VStr "theme.css"]] /\
    result (run_hook setup app) = Normal VNone /\
    final (run_hook setup app) =
      state_after (invoke (Call "add_css_file" [VStr "theme.css"]) app).
Proof.
  split; [by vm_compute |].
  intros A APP app.
  destruct (add_css_file_returns "theme.css" app) as (v & app' & E).
  split; [by rewrite setup_calls_at_most_once, E |].
  unfold setup, call_method. cbn [mbind hook_mbind hook_bind mret hook_mret].
  rewrite (run_hook_invoke_returned _ _ _ _ _ E), E. by cbn.
Qed.

(** On the application that records its stylesheets, [setup] registers
    ["theme.css"] and nothing else. *)
Lemma setup_registers_theme_css_witness :
  run_hook setup (Sphinx.App []) =
    Run [Call "add_css_file" [VStr "theme.css"]] (Normal VNone) (Sphinx.App ["theme.css"]).
Proof.
  pose proof (proj2 setup_registers_theme_css Sphinx.app Sphinx.app_application
                (Sphinx.App [])) as (Hc & Hr & Hf).
  destruct (run_hook setup (Sphinx.App [])) as [c r f].
  cbn in Hc, Hr, Hf. by subst.
Defined.

(** ** Bindings of the module *)

(** C2. [setup] is bound to a function, it is the only binding of the
    module whose value is one, and every other binding holds a string, a
    boolean, an integer, a list or a mapping. *)
Theorem setup_is_the_only_function :
  (exists o, conf !! "setup" = Some o /\ obj_type o = TFunction) /\
  forall (name : string) (o : pyobj),
    conf !! name = Some o ->
    (obj_type o = TFunction <-> name = "setup") /\
    (name <> "setup" -> obj_type o ∈ plain_types).
Proof.
  split; [eexists; split; [by vm_compute | reflexivity] |].
  each_binding;
    (split; [split |]; intros H;
     first [discriminate H | reflexivity | exfalso; apply H; reflexivity
           | apply list_elem_of_In; cbn; tauto]).
Qed.

Lemma setup_is_the_only_function_witness :
  conf !! "myst_heading_anchors" = Some (Data (VInt 2)) /\
  obj_type (Data (VInt 2)) ∈ plain_types.
Proof.
  assert (Hl : conf !! "myst_heading_anchors" = Some (Data (VInt 2)))
    by (vm_compute; reflexivity).
  split; [exact Hl |].
  apply (proj2 (proj2 setup_is_the_only_function _ _ Hl)). discriminate.
Defined.

(** The only binding that holds a mapping is [html_theme_options]. *)
Lemma mapping_bindings (name : string) (items : list (string * pyval)) :
  conf !! name = Some (Data (VDict items)) ->
  name = "html_theme_options" /\ VDict items = html_theme_options.
Proof.
  intros Hl.
  refine (conf_bindings_ind
            (fun n o => forall its, o = Data (VDict its) ->
                        n = "html_theme_options" /\ VDict its = html_theme_options)
            _ name _ Hl items eq_refl).
  clear.
  let l := eval vm_compute in (map_to_list conf) in
  assert (E : map_to_list conf = l) by (vm_compute; reflexivity);
  rewrite E; clear E.
  forall_items;
    (intros its E; first [discriminate E | injection E as <-; split; reflexivity]).
Qed.

(** C3 as written fails. The integer [2] is bound, under
    [myst_heading_anchors], and is none of the four listed shapes: not every configuration value is a string, a
    boolean, a sequence of strings or a mapping. *)
Lemma listed_shapes_miss_an_integer :
  conf !! "myst_heading_anchors" = Some (Data (VInt 2)) /\
  listed_shape (Data (VInt 2)) = false /\
  ~ (forall (name : string) (o : pyobj),
       conf !! name = Some o -> listed_shape o = true).
Proof.
  assert (Hl : conf !! "myst_heading_anchors" = Some (Data (VInt 2)))
    by (vm_compute; reflexivity).
  split; [exact Hl |]. split; [reflexivity |].
  intros H. specialize (H _ _ Hl). discriminate H.
Qed.

(** C3, as the module has it. Every binding is a string, a boolean, a
    sequence of strings, the integer of [myst_heading_anchors], the mapping
    [html_theme_options] (whose values are strings, booleans, integers or a
    sequence of string mappings), or the function [setup]. *)
Theorem configuration_value_shapes (name : string) (o : pyobj) :
  conf !! name = Some o ->
  match o with
  | Data (VStr _) | Data (VBool _) => True
  | Data (VList items) => all_str items = true
  | Data (VInt _) => name = "myst_heading_anchors"
  | Data (VDict items) => name = "html_theme_options" /\ display_options items = true
  | Data VNone => False
  | Function _ _ => name = "setup"
  end.
Proof.
  revert name o. each_binding; first [exact I | reflexivity | split; reflexivity].
Qed.

Lemma configuration_value_shapes_witness :
  conf !! "html_theme_options" = Some (Data html_theme_options) /\
  match html_theme_options with
  | VDict items => display_options items = true
  | _ => False
  end.
Proof.
  assert (Hl : conf !! "html_theme_options" = Some (Data html_theme_options))
    by (vm_compute; reflexivity).
  split; [exact Hl |].
  exact (proj2 (configuration_value_shapes _ _ Hl)).
Defined.

(** C4 as written fails. The two hint options are top-level string
    variables, and no mapping of the module has an item for them: they are
    not declared as a mapping. *)
Lemma togglebutton_options_not_in_a_mapping :
  declared_flat conf togglebutton_options /\
  ~ declared_in_mapping conf togglebutton_options.
Proof.
  split.
  - repeat (apply List.Forall_cons || apply List.Forall_nil);
      eexists; vm_compute; reflexivity.
  - intros (name & items & Hl & Hall).
    apply mapping_bindings in Hl as [_ E]. injection E as ->.
    apply Forall_inv in Hall. destruct Hall as [v Hv]. vm_compute in Hv.
    discriminate Hv.
Qed.

(** C4, as the module has it. [togglebutton_hint] and
    [togglebutton_hint_hide] are two separate top-level string variables
    holding the hint texts; the only mapping bound by the module is
    [html_theme_options], and none of its keys is a toggle-button option. *)
Theorem togglebutton_hints_are_flat_strings :
  option_value "togglebutton_hint" = Some (VStr "点击展开") /\
  option_value "togglebutton_hint_hide" = Some (VStr "点击隐藏") /\
  declared_flat conf togglebutton_options /\
  forall (name : string) (items : list (string * pyval)),
    conf !! name = Some (Data (VDict items)) ->
    name = "html_theme_options" /\
    forallb (fun kv => negb (String.prefix "togglebutton" kv.1)) items = true.
Proof.
  split; [by vm_compute |]. split; [by vm_compute |]. split.
  - repeat (apply List.Forall_cons || apply List.Forall_nil);
      eexists; vm_compute; reflexivity.
  - intros name items Hl. apply mapping_bindings in Hl as [-> E].
    injection E as ->. split; reflexivity.
Qed.

Lemma togglebutton_hints_are_flat_strings_witness :
  conf !! "html_theme_options" = Some (Data html_theme_options) /\
  match html_theme_options with
  | VDict items =>
      forallb (fun kv => negb (String.prefix "togglebutton" kv.1)) items = true
  | _ => False
  end.
Proof.
  assert (Hl : conf !! "html_theme_options" = Some (Data html_theme_options))
    by (vm_compute; reflexivity).
  split; [exact Hl |].
  exact (proj2 (proj2 (proj2 (proj2 togglebutton_hints_are_flat_strings)) _ _ Hl)).
Defined.

(** ** Single options *)

(** C5. [extensions] is a list of exactly thirteen strings, in the order
    of the file, from ['myst_parser'] to ['sphinxext.opengraph']. *)
Theorem extensions_are_thirteen_names :
  exists items : list pyval,
    option_value "extensions" = Some (VList items) /\
    items = VStr <$> [
      "myst_parser"; "sphinx.ext.extlinks"; "sphinx.ext.graphviz";
      "sphinx.ext.intersphinx"; "sphinx.ext.todo"; "sphinx_copybutton";
      "sphinx_design"; "sphinx_examples"; "sphinx_last_updated_by_git";
      "sphinx_sitemap"; "sphinx_tabs.tabs"; "sphinx_togglebutton";
      "sphinxext.opengraph"] /\
    length items = 13%nat /\
    head items = Some (VStr "myst_parser") /\
    last items = Some (VStr "sphinxext.opengraph") /\
    all_str items = true.
Proof.
  eexists. split; [vm_compute; reflexivity |]. repeat split.
Qed.

(** C6. [html_copy_source] and [html_show_sourcelink] are both bound, and
    both to [False]. *)
Theorem source_links_are_disabled :
  option_value "html_copy_source" = Some (VBool false) /\
  option_value "html_show_sourcelink" = Some (VBool false).
Proof. split; vm_compute; reflexivity. Qed.

(** C7. [language] is ['zh_CN'], [html_search_language] is ['zh'], and the
    search language is the language part the locale tag starts with. *)
Theorem language_tags :
  exists lang search : string,
    option_value "language" = Some (VStr lang) /\
    option_value "html_search_language" = Some (VStr search) /\
    lang = "zh_CN" /\ search = "zh" /\
    String.prefix search lang = true.
Proof.
  eexists _, _. split; [vm_compute; reflexivity |].
  split; [vm_compute; reflexivity |]. repeat split.
Qed.

(** C8. [sitemap_filename] is ['sitemapindex.xml'] and [sitemap_url_scheme]
    is the template ['{link}']. *)
Theorem sitemap_options :
  option_value "sitemap_filename" = Some (VStr "sitemapindex.xml") /\
  option_value "sitemap_url_scheme" = Some (VStr "{link}").
Proof. split; vm_compute; reflexivity. Qed.

(** C9. [html_title] is, character for character, the string bound to
    [project], ['Discord.js Bot Project']: its f-string has one replacement
    field and no text around it, so on any globals that bind [project] to a
    string the assignment binds [html_title] to that same string. *)
Theorem html_title_is_project :
  option_value "html_title" = Some (VStr "Discord.js Bot Project") /\
  option_value "html_title" = option_value "project" /\
  forall (g : gmap string pyobj) (s : string),
    g !! "project" = Some (Data (VStr s)) ->
    html_title g = Ok tt (<["html_title" := Data (VStr s)]> g).
Proof.
  split; [by vm_compute |]. split; [by vm_compute |].
  intros g s E. unfold html_title.
  change (match fstring [Replacement (load "project")] g with
          | Ok a g' => ("html_title" ::= VStr a) g'
          | Err e => Err e
          end = Ok tt (<["html_title":=Data (VStr s)]> g)).
  by rewrite (fstring_lone_str _ _ _ E).
Qed.

Lemma html_title_is_project_witness :
  html_title {["project" := Data (VStr "jsbot")]} =
    Ok tt (<["html_title" := Data (VStr "jsbot")]> {["project" := Data (VStr "jsbot")]}).
Proof.
  apply (proj2 (proj2 html_title_is_project)).
  apply lookup_singleton_eq.
Defined.

(** X7. [html_baseurl] is the literal ['https://TODO/']; the theme options
    give one repository URL, as [repository_url] and as the URL of the icon
    link, and [html_baseurl] is not that URL. *)
Theorem html_baseurl_differs_from_repository_url :
  option_value "html_baseurl" = Some (VStr "https://TODO/") /\
  theme_option "repository_url" =
    Some (VStr "https://github.com/ODYZZEIA-Discord-bot/jsbot_doc") /\
  icon_link 0 "url" = theme_option "repository_url" /\
  option_value "html_baseurl" <> theme_option "repository_url".
Proof.
  split; [by vm_compute |]. split; [by vm_compute |].
  split; [by vm_compute |].
  intros E. vm_compute in E. discriminate E.
Qed.

(** ** The module on globals that are not empty *)

(** [html_title] succeeds as soon as [project] is bound to a string. *)
Lemma html_title_runs (g : gmap string pyobj) (s : string) :
  g !! "project" = Some (Data (VStr s)) ->
  html_title g = Ok tt (<["html_title" := Data (VStr s)]> g).
Proof.
  intros E. unfold html_title.
  change (match fstring [Replacement (load "project")] g with
          | Ok a g' => ("html_title" ::= VStr a) g'
          | Err e => Err e
          end = Ok tt (<["html_title":=Data (VStr s)]> g)).
  by rewrite (fstring_lone_str _ _ _ E).
Qed.

(** The body is a chain of insertions on whatever globals it starts from. *)
Lemma conf_py_chain :
  exists F : gmap string pyobj -> gmap string pyobj,
    (forall g, conf_py g = Ok tt (F g)) /\ (forall g, F g = F ∅ ∪ g).
Proof.
  eexists. split.
  - intros g. unfold conf_py.
    unfold mbind, exec_mbind, assign, def, store. cbn beta iota.
    erewrite html_title_runs.
    2: { rewrite !lookup_insert_ne by discriminate. apply lookup_insert_eq. }
    cbn beta iota.
    match goal with
    | |- Ok tt ?t = Ok tt (?F g) =>
        let t' := eval pattern g in t in
        match t' with ?f g => unify F f end
    end.
    reflexivity.
  - intros g. cbn beta. rewrite <- !insert_union_l. by rewrite (left_id ∅ _).
Qed.

Lemma conf_py_union (g : gmap string pyobj) : conf_py g = Ok tt (conf ∪ g).
Proof.
  destruct conf_py_chain as (F & Hrun & Hun).
  rewrite Hrun, Hun. do 2 f_equal.
  pose proof conf_py_runs as H. unfold import in H. rewrite Hrun in H.
  by injection H.
Qed.

(** X1. Started on any globals at all, the module body runs to its end and
    leaves the globals with its own twenty-six bindings laid over them: a
    name the module assigns has the module's value whatever it held before,
    and every other name keeps its binding. *)
Theorem conf_py_over_any_globals (g : gmap string pyobj) :
  conf_py g = Ok tt (conf ∪ g) /\
  forall name : string,
    (conf ∪ g) !! name =
      match conf !! name with
      | Some o => Some o
      | None => g !! name
      end.
Proof.
  split; [apply conf_py_union |].
  intros name. destruct (conf !! name) as [o|] eqn:E.
  - by apply lookup_union_Some_l.
  - by apply lookup_union_r.
Qed.

(** X2. Running the module body a second time changes nothing: twice in a
    row gives the globals that once gives. *)
Theorem conf_py_twice (g : gmap string pyobj) :
  (conf_py;; conf_py) g = conf_py g.
Proof.
  unfold mbind, exec_mbind. rewrite (conf_py_union g), conf_py_union.
  by rewrite (assoc_L (∪)), (idemp_L (∪)).
Qed.

(** X3. The assignment of [html_title] reads the name [project]: on
    globals that bind it neither themselves nor in the builtins dict they
    carry, the statement raises [NameError] for [project] and binds
    nothing. *)
Theorem html_title_needs_project
    (g : gmap string pyobj) (builtins : list (string * pyval)) :
  g !! "project" = None ->
  g !! "__builtins__" = Some (Data (VDict builtins)) ->
  dict_get "project" builtins = None ->
  html_title g = Err (NameError "project").
Proof.
  intros E Eb En. unfold html_title.
  change (match fstring [Replacement (load "project")] g with
          | Ok a g' => ("html_title" ::= VStr a) g'
          | Err e => Err e
          end = Err (NameError "project")).
  cbn [fstring]. unfold mbind, exec_mbind, load. by rewrite E, Eb, En.
Qed.

Lemma html_title_needs_project_witness :
  html_title {["__builtins__" := Data (VDict [])]} = Err (NameError "project").
Proof.
  apply (html_title_needs_project _ []).
  - vm_compute. reflexivity.
  - apply lookup_singleton_eq.
  - reflexivity.
Defined.

(** X8. When the globals do not bind [project] but their builtins dict
    binds it to a string, the read falls back to the builtins and
    [html_title] is bound to that string. *)
Theorem html_title_from_builtins
    (g : gmap string pyobj) (builtins : list (string * pyval)) (s : string) :
  g !! "project" = None ->
  g !! "__builtins__" = Some (Data (VDict builtins)) ->
  dict_get "project" builtins = Some (VStr s) ->
  html_title g = Ok tt (<["html_title" := Data (VStr s)]> g).
Proof.
  intros E Eb En. unfold html_title.
  change (match fstring [Replacement (load "project")] g with
          | Ok a g' => ("html_title" ::= VStr a) g'
          | Err e => Err e
          end = Ok tt (<["html_title" := Data (VStr s)]> g)).
  cbn [fstring]. unfold mbind, exec_mbind, load. rewrite E, Eb, En. cbn.
  unfold mret, exec_mret. by rewrite append_empty_r.
Qed.

Lemma html_title_from_builtins_witness :
  html_title {["__builtins__" := Data (VDict [("project", VStr "x")])]} =
    Ok tt (<["html_title" := Data (VStr "x")]>
             {["__builtins__" := Data (VDict [("project", VStr "x")])]}).
Proof.
  apply (html_title_from_builtins _ [("project", VStr "x")]).
  - vm_compute. reflexivity.
  - apply lookup_singleton_eq.
  - reflexivity.
Defined.

(** ** The hook on an object that fails *)

(** X4. [setup] has no handler around its call: when the object has an
    [add_css_file] and the call raises, [setup] ends with that same
    exception, having made that one call, and the object is left as the
    failed call left it. *)
Theorem setup_propagates_exception {A : Type} `{PyObject A}
    (app app' : A) (exc : string) :
  invoke (Call "add_css_file" [VStr "theme.css"]) app = Raised exc app' ->
  run_hook setup app =
    Run [Call "add_css_file" [VStr "theme.css"]] (Exception exc) app'.
Proof.
  intros E. unfold setup, call_method.
  cbn [mbind hook_mbind hook_bind mret hook_mret].
  exact (run_hook_invoke_raised _ _ _ _ _ E).
Qed.

Lemma setup_propagates_exception_witness :
  run_hook setup (Frozen.App 0) =
    Run [Call "add_css_file" [VStr "theme.css"]] (Exception "ExtensionError")
        (Frozen.App 1).
Proof. apply setup_propagates_exception. reflexivity. Defined.

(** X6. When the lookup of [add_css_file] on the object already fails, as
    on an object without that attribute, [setup] ends with the exception
    of the lookup and no call is made at all. *)
Theorem setup_on_object_without_method {A : Type} `{PyObject A}
    (app app' : A) (exc : string) :
  invoke (Call "add_css_file" [VStr "theme.css"]) app = NotCalled exc app' ->
  run_hook setup app = Run [] (Exception exc) app'.
Proof.
  intros E. unfold setup, call_method.
  cbn [mbind hook_mbind hook_bind mret hook_mret].
  exact (run_hook_invoke_not_called _ _ _ _ _ E).
Qed.

Lemma setup_on_object_without_method_witness :
  run_hook setup Bare.Object = Run [] (Exception "AttributeError") Bare.Object.
Proof. apply setup_on_object_without_method. reflexivity. Defined.

(** ** Keys of the theme options *)

Lemma dict_get_unwritten (k : string) (items : list (string * pyval)) :
  k ∉ written_keys items -> dict_get k items = None.
Proof.
  induction items as [|[k' v'] items IH]; [reflexivity |].
  intros Hk. apply not_elem_of_cons in Hk as [Hne Hk].
  cbn [dict_get]. rewrite (IH Hk).
  destruct (String.eqb_spec k' k) as [->|]; [done | reflexivity].
Qed.

(** In a display that writes no key twice, every item is found under its
    key. *)
Lemma dict_get_written (k : string) (v : pyval) (items : list (string * pyval)) :
  NoDup (written_keys items) -> (k, v) ∈ items -> dict_get k items = Some v.
Proof.
  induction items as [|[k' v'] items IH]; intros Hnd Hin.
  - by apply elem_of_nil in Hin.
  - apply NoDup_cons in Hnd as [Hk' Hnd]. cbn in Hk'. cbn [dict_get].
    apply elem_of_cons in Hin as [[= <- <-]|Hin].
    + rewrite (dict_get_unwritten _ _ Hk'). by rewrite String.eqb_refl.
    + by rewrite (IH Hnd Hin).
Qed.

(** X5. No key of [html_theme_options] is written twice, so no option of
    the display is silently replaced by a later one: each item written is
    the value that subscripting by its key gives. *)
Theorem theme_options_are_all_in_effect :
  exists items : list (string * pyval),
    option_value "html_theme_options" = Some (VDict items) /\
    NoDup (written_keys items) /\
    forall (k : string) (v : pyval),
      (k, v) ∈ items -> theme_option k = Some v.
Proof.
  eexists. split; [vm_compute; reflexivity |].
  assert (Hnd : NoDup (written_keys
            match html_theme_options with VDict its => its | _ => [] end)).
  { apply (bool_decide_unpack _). vm_compute. reflexivity. }
  split; [exact Hnd |].
  intros k v Hin. unfold theme_option.
  replace (option_value "html_theme_options") with (Some html_theme_options)
    by (vm_compute; reflexivity).
  exact (dict_get_written _ _ _ Hnd Hin).
Qed.

Lemma theme_options_are_all_in_effect_witness :
  theme_option "show_toc_level" = Some (VInt 2).
Proof.
  destruct theme_options_are_all_in_effect as (items & E & _ & H).
  apply H.
  assert (E' : option_value "html_theme_options" = Some html_theme_options)
    by (vm_compute; reflexivity).
  rewrite E' in E. injection E as <-.
  apply list_elem_of_In. cbn. tauto.
Defined.
